(** * Background-removal service: [backend/main.py]

    A shallow embedding of the FastAPI application of [backend/main.py] and
    the properties of its single endpoint.

    The program is glue around three external libraries: Pillow (image
    decoding, colour conversion, PNG encoding), transparent_background (the
    segmentation model) and FastAPI/Starlette (routing, parameter validation,
    the default documentation routes and the CORS middleware).  Pillow and
    the model are not part of the repository, so they enter the development
    as interfaces ([Pillow], [TransparentBackground]); what the properties
    need from them is stated as explicit contracts ([convert_keeps_size],
    [process_read_only], ...).  The framework is modelled as far as the
    application uses it: [FastAPI_new], [add_middleware], [post], the router
    and the middleware.  The endpoint and the module's top-level statements
    are translated from the source. *)

From Stdlib Require Import List ZArith NArith Arith Ascii String Bool Lia.
From Stdlib Require Import Strings.Byte.
Import ListNotations.

Local Open Scope string_scope.
Local Open Scope list_scope.

(** ** Data *)

Definition bytes := list byte.

(** Pillow's image modes (the standard modes of the handbook, with the
    alpha variants of L and P); [Mode1], [ModeL], [ModeP], [ModeI] and
    [ModeF] are the modes "1", "L", "P", "I" and "F". *)
Inductive Mode :=
| Mode1 | ModeL | ModeP | RGB | RGBA | CMYK | YCbCr | LAB | HSV
| ModeI | ModeF | LA | PA.

(** Number of bands of a mode: [len(Image.getbands())]. *)
Definition bands (m : Mode) : nat :=
  match m with
  | Mode1 | ModeL | ModeP | ModeI | ModeF => 1
  | LA | PA => 2
  | RGB | YCbCr | LAB | HSV => 3
  | RGBA | CMYK => 4
  end.

(** One pixel: its band samples, in band order. *)
Definition Pixel := list Z.

(** A decoded bitmap, [PIL.Image.Image]: mode, [size = (width, height)] and
    the pixels in row-major order. *)
Record Image := mkImage {
  im_mode : Mode;
  im_size : nat * nat;
  im_data : list Pixel
}.

Definition width (im : Image) : nat := fst (im_size im).
Definition height (im : Image) : nat := snd (im_size im).

(** The red, green and blue samples of a pixel of an RGB or RGBA bitmap. *)
Definition rgb_of (px : Pixel) : Pixel := firstn 3 px.

Definition has_rgb (im : Image) : Prop := im_mode im = RGB \/ im_mode im = RGBA.

(** The bitmap without its alpha band. *)
Definition drop_alpha (im : Image) : Image :=
  mkImage RGB (im_size im) (map rgb_of (im_data im)).

(** Two bitmaps with red, green and blue bands that agree on them (and on
    their dimensions); their alpha bands, if any, are unconstrained. *)
Definition agree_rgb (a b : Image) : Prop :=
  has_rgb a /\ has_rgb b /\ im_size a = im_size b /\
  map rgb_of (im_data a) = map rgb_of (im_data b).

(** A Python exception, by the name of its class. *)
Definition exn := string.

(** Result of a library call that may raise. *)
Inductive result (A : Type) :=
| Ok (a : A)
| Raise (e : exn).
Arguments Ok {A} a.
Arguments Raise {A} e.

(** [starlette.datastructures.UploadFile]: one file part of a multipart body. *)
Record UploadFile := mkUploadFile {
  filename : string;
  content_type : string;
  file_content : bytes
}.

(** [starlette.responses.Response(content, status_code=200, media_type)]. *)
Record Response := mkResponse {
  content : bytes;
  status_code : Z;
  media_type : string
}.

(** ** The external libraries *)

(** The three Pillow calls of the endpoint.  [Image_open] stands for
    [Image.open] on an in-memory [io.BytesIO] together with the loading of the
    pixel data, [Image_save] for [Image.save] into an in-memory [io.BytesIO]
    (the bytes written). *)
Class Pillow := {
  Image_open : bytes -> result Image;
  Image_convert : Image -> Mode -> result Image;
  Image_save : Image -> string -> result bytes
}.

(** [transparent_background.Remover]: the state of a model instance, its
    constructor and [Remover.process], which returns its result and leaves the
    instance in a (possibly different) state. *)
Class TransparentBackground := {
  Remover : Type;
  Remover_new : string -> string -> Remover;
  Remover_process : Remover -> Image -> string -> result Image * Remover
}.

(** ** Effects *)

(** The stage of the pipeline in which an exception was raised: line 20
    (decode), line 21 (inference), line 23 (encode). *)
Inductive Stage := Decode | Infer | Encode.

(** The calls a request handler of this kind makes into its environment, in
    the order made: the calls of the program into its libraries, and the two
    effects on the environment that the program does not have, a write to
    the file system ([open(path, 'wb').write(data)]) and a log record
    ([print], [logging]). *)
Inductive Event :=
| EvRemoverNew (mode resize : string)
| EvRead (f : UploadFile)
| EvOpenBytesIO (fp : bytes)
| EvConvert (im : Image) (m : Mode)
| EvProcess (im : Image) (type : string)
| EvSaveBytesIO (im : Image) (format : string)
| EvFileWrite (path : string) (data : bytes)
| EvLog (message : string).

Definition is_RemoverNew (ev : Event) : bool :=
  match ev with EvRemoverNew _ _ => true | _ => false end.

Definition is_Process (ev : Event) : bool :=
  match ev with EvProcess _ _ => true | _ => false end.

(** The calls that work on values held in memory only: reading the upload,
    decoding from and encoding into an [io.BytesIO], conversion and inference
    on bitmaps.  Creating the model, writing a file and logging are not. *)
Definition in_memory (ev : Event) : bool :=
  match ev with
  | EvRemoverNew _ _ => false
  | EvRead _ => true
  | EvOpenBytesIO _ => true
  | EvConvert _ _ => true
  | EvProcess _ _ => true
  | EvSaveBytesIO _ _ => true
  | EvFileWrite _ _ => false
  | EvLog _ => false
  end.

Inductive Outcome (A : Type) :=
| Return (a : A)
| Raised (s : Stage) (e : exn).
Arguments Return {A} a.
Arguments Raised {A} s e.

Section Service.

Context {pil : Pillow} {tb : TransparentBackground}.

(** Process-wide state: the module-level [remover], and the calls made so
    far. *)
Record World := mkWorld {
  w_remover : Remover;
  w_trace : list Event
}.

(** Computations of the program: state passing over [World], with
    exceptions. *)
Definition M (A : Type) : Type := World -> Outcome A * World.

Definition ret {A} (a : A) : M A := fun w => (Return a, w).

Definition bind {A B} (c : M A) (k : A -> M B) : M B :=
  fun w =>
    match c w with
    | (Return a, w') => k a w'
    | (Raised s e, w') => (Raised s e, w')
    end.

Definition emit (ev : Event) : M unit :=
  fun w => (Return tt, mkWorld (w_remover w) (w_trace w ++ [ev])).

Definition lift {A} (s : Stage) (r : result A) : M A :=
  fun w =>
    match r with
    | Ok a => (Return a, w)
    | Raise e => (Raised s e, w)
    end.

(** [try: c except Exception: h]. *)
Definition catch {A} (c : M A) (h : Stage -> exn -> M A) : M A :=
  fun w =>
    match c w with
    | (Return a, w') => (Return a, w')
    | (Raised s e, w') => h s e w'
    end.

End Service.

Declare Scope service_scope.
Delimit Scope service_scope with service.
Notation "x <- c ;; k" := (bind c (fun x => k))
  (at level 61, c at next level, right associativity) : service_scope.
Notation "c ;;; k" := (bind c (fun _ => k))
  (at level 61, right associativity) : service_scope.
Local Open Scope service_scope.

Section Endpoint.

Context {pil : Pillow} {tb : TransparentBackground}.

(** [await file.read()]. *)
Definition UploadFile_read (f : UploadFile) : M bytes :=
  emit (EvRead f) ;;; ret (file_content f).

(** [Image.open(io.BytesIO(b))]. *)
Definition PIL_Image_open (b : bytes) : M Image :=
  emit (EvOpenBytesIO b) ;;; lift Decode (Image_open b).

(** [img.convert(m)]. *)
Definition PIL_convert (img : Image) (m : Mode) : M Image :=
  emit (EvConvert img m) ;;; lift Decode (Image_convert img m).

(** [remover.process(img, type=ty)]: a method call on the module-level
    instance, which it may change. *)
Definition remover_process (img : Image) (ty : string) : M Image :=
  fun w =>
    let r := Remover_process (w_remover w) img ty in
    let w' := mkWorld (snd r) (w_trace w ++ [EvProcess img ty]) in
    match fst r with
    | Ok out => (Return out, w')
    | Raise e => (Raised Infer e, w')
    end.

(** [img.save(buf, format=fmt)] on an [io.BytesIO] holding [buf]: the buffer
    afterwards. *)
Definition PIL_save (img : Image) (buf : bytes) (fmt : string) : M bytes :=
  emit (EvSaveBytesIO img fmt) ;;;
  (png <- lift Encode (Image_save img fmt) ;; ret (buf ++ png)).

(** [remove_background_endpoint], lines 18-24. *)
Definition remove_background_endpoint (file : UploadFile) : M Response :=
  image_bytes <- UploadFile_read file ;;
  img <- PIL_Image_open image_bytes ;;
  img <- PIL_convert img RGB ;;
  out_img <- remover_process img "rgba" ;;
  let buf := [] in
  buf <- PIL_save out_img buf "PNG" ;;
  ret (mkResponse buf 200 "image/png").

(** Line 20 as a function of the uploaded bytes. *)
Definition decode (b : bytes) : result Image :=
  match Image_open b with
  | Ok img => Image_convert img RGB
  | Raise e => Raise e
  end.

Definition decodable (b : bytes) : Prop := exists img, decode b = Ok img.

End Endpoint.

(** ** The application *)

Inductive Method := GET | HEAD | POST | PUT | PATCH | DELETE | OPTIONS.

Definition Method_eqb (a b : Method) : bool :=
  match a, b with
  | GET, GET | HEAD, HEAD | POST, POST | PUT, PUT
  | PATCH, PATCH | DELETE, DELETE | OPTIONS, OPTIONS => true
  | _, _ => false
  end.

(** A request as the application sees it: method, path, headers (names in
    lower case) and the file parts of its multipart/form-data body by field
    name (none when the body is not a multipart form). *)
Record Request := mkRequest {
  rq_method : Method;
  rq_path : string;
  rq_headers : list (string * string);
  rq_files : list (string * UploadFile)
}.

(** [Headers.get]: the first header of that name. *)
Fixpoint assoc_first (name : string) (l : list (string * string))
  : option string :=
  match l with
  | [] => None
  | (k, v) :: rest => if String.eqb k name then Some v else assoc_first name rest
  end.

Definition header (name : string) (rq : Request) : option string :=
  assoc_first name (rq_headers rq).

(** What the client receives: the endpoint's [Response]; an error response
    generated by the framework; or another answer of the framework (a
    documentation page, a redirect, the answer to a CORS preflight).  The
    bodies of the framework's responses are its own. *)
Inductive HTTPResponse :=
| FromEndpoint (r : Response)
| FrameworkError (status : Z)
| FromFramework (status : Z).

Definition http_status (r : HTTPResponse) : Z :=
  match r with
  | FromEndpoint r => status_code r
  | FrameworkError st => st
  | FromFramework st => st
  end.

(** The body and content type the endpoint chose, if the response is its
    own. *)
Definition http_body (r : HTTPResponse) : option bytes :=
  match r with
  | FromEndpoint r => Some (content r)
  | FrameworkError _ => None
  | FromFramework _ => None
  end.

Definition http_media_type (r : HTTPResponse) : option string :=
  match r with
  | FromEndpoint r => Some (media_type r)
  | FrameworkError _ => None
  | FromFramework _ => None
  end.

(** *** Strings, as Starlette uses them *)

Definition lower_ascii (c : Ascii.ascii) : Ascii.ascii :=
  let n := Ascii.nat_of_ascii c in
  if Nat.leb 65 n && Nat.leb n 90 then Ascii.ascii_of_nat (n + 32) else c.

(** [str.lower], on ASCII. *)
Fixpoint lower (s : string) : string :=
  match s with
  | EmptyString => EmptyString
  | String c rest => String (lower_ascii c) (lower rest)
  end.

Definition is_space (c : Ascii.ascii) : bool :=
  let n := Ascii.nat_of_ascii c in
  (Nat.leb 9 n && Nat.leb n 13) || (Nat.leb 28 n && Nat.leb n 32)
  || Nat.eqb n 133 || Nat.eqb n 160.

Fixpoint lstrip (s : string) : string :=
  match s with
  | EmptyString => EmptyString
  | String c rest => if is_space c then lstrip rest else s
  end.

Definition reverse (s : string) : string :=
  string_of_list_ascii (rev (list_ascii_of_string s)).

(** [str.strip()]. *)
Definition strip (s : string) : string :=
  reverse (lstrip (reverse (lstrip s))).

(** [str.split(sep)] for a one-character separator. *)
Fixpoint split (sep : Ascii.ascii) (s : string) : list string :=
  match s with
  | EmptyString => [EmptyString]
  | String c rest =>
      if Ascii.eqb c sep then EmptyString :: split sep rest
      else
        match split sep rest with
        | h :: t => String c h :: t
        | [] => [String c EmptyString]
        end
  end.

Fixpoint drop_slashes (l : list Ascii.ascii) : list Ascii.ascii :=
  match l with
  | c :: rest => if Ascii.eqb c "/"%char then drop_slashes rest else l
  | [] => []
  end.

Definition ends_with_slash (p : string) : bool :=
  match rev (list_ascii_of_string p) with
  | c :: _ => Ascii.eqb c "/"%char
  | [] => false
  end.

(** [path.rstrip("/")]. *)
Definition rstrip_slash (p : string) : string :=
  string_of_list_ascii (rev (drop_slashes (rev (list_ascii_of_string p)))).

(** The path the router tries when no route matches ([redirect_slashes]). *)
Definition toggle_slash (p : string) : string :=
  if ends_with_slash p then rstrip_slash p else p ++ "/".

Definition mem (x : string) (l : list string) : bool :=
  existsb (String.eqb x) l.

(** *** [CORSMiddleware] *)

(** [CORSMiddleware] configuration, lines 9-14. *)
Record CORSMiddleware := mkCORS {
  allow_origins : list string;
  allow_methods : list string;
  allow_headers : list string
}.

Definition ALL_METHODS : list string :=
  ["DELETE"; "GET"; "HEAD"; "OPTIONS"; "PATCH"; "POST"; "PUT"].

Definition SAFELISTED_HEADERS : list string :=
  ["Accept"; "Accept-Language"; "Content-Language"; "Content-Type"].

(** A CORS preflight: an OPTIONS request with an [Origin] and an
    [Access-Control-Request-Method] header. *)
Definition is_preflight (rq : Request) : bool :=
  match header "origin" rq, rq_method rq,
        header "access-control-request-method" rq with
  | Some _, OPTIONS, Some _ => true
  | _, _, _ => false
  end.

(** [CORSMiddleware.preflight_response]: 200 when origin, requested method
    and requested headers are allowed, 400 otherwise. *)
Definition preflight_response (c : CORSMiddleware) (rq : Request)
  : HTTPResponse :=
  let methods :=
    if mem "*" (allow_methods c) then ALL_METHODS else allow_methods c in
  let origin_ok :=
    mem "*" (allow_origins c) ||
    match header "origin" rq with
    | Some o => mem o (allow_origins c)
    | None => false
    end in
  let method_ok :=
    match header "access-control-request-method" rq with
    | Some m => mem m methods
    | None => false
    end in
  let headers_ok :=
    mem "*" (allow_headers c) ||
    match header "access-control-request-headers" rq with
    | None => true
    | Some hs =>
        forallb
          (fun h => mem (strip h)
                      (map lower (SAFELISTED_HEADERS ++ allow_headers c)))
          (map lower (split ","%char hs))
    end in
  if origin_ok && method_ok && headers_ok
  then FromFramework 200 else FrameworkError 400.

Section Application.

Context {pil : Pillow} {tb : TransparentBackground}.

(** What a route runs: a path operation with one required
    [UploadFile = File(...)] parameter, or a page the framework serves. *)
Inductive Handler :=
| PathOperation (file_param : string) (endpoint : UploadFile -> M Response)
| FrameworkPage.

Record Route := mkRoute {
  rt_methods : list Method;
  rt_path : string;
  rt_handler : Handler
}.

Record FastAPI := mkFastAPI {
  user_middleware : list CORSMiddleware;
  routes : list Route
}.

(** [FastAPI()] with its default arguments: no middleware of the user, and
    the documentation routes at [openapi_url], [docs_url],
    [swagger_ui_oauth2_redirect_url] and [redoc_url], which answer GET and
    HEAD. *)
Definition FastAPI_new : FastAPI :=
  mkFastAPI []
    [mkRoute [GET; HEAD] "/openapi.json" FrameworkPage;
     mkRoute [GET; HEAD] "/docs" FrameworkPage;
     mkRoute [GET; HEAD] "/docs/oauth2-redirect" FrameworkPage;
     mkRoute [GET; HEAD] "/redoc" FrameworkPage].

(** [app.add_middleware(CORSMiddleware, ...)]: the new middleware is the
    outermost. *)
Definition add_middleware (a : FastAPI) (c : CORSMiddleware) : FastAPI :=
  mkFastAPI (c :: user_middleware a) (routes a).

(** [@app.post(path)] on a function with one parameter
    [file_param: UploadFile = File(...)]: the route is added after the
    others. *)
Definition post (a : FastAPI) (path file_param : string)
  (endpoint : UploadFile -> M Response) : FastAPI :=
  mkFastAPI (user_middleware a)
    (routes a ++ [mkRoute [POST] path (PathOperation file_param endpoint)]).

(** The module's application object: [app = FastAPI()] (line 8),
    [add_middleware] (lines 9-14) and the decorator of line 17. *)
Definition app : FastAPI :=
  post (add_middleware FastAPI_new (mkCORS ["*"] ["POST"] ["*"]))
    "/api/remove-background" "file" remove_background_endpoint.

(** The module's top level, run once when the module is imported: line 15
    creates the model instance. *)
Definition startup : World :=
  mkWorld (Remover_new "fast" "dynamic") [EvRemoverNew "fast" "dynamic"].

(** The value of a form field: the last part with that name. *)
Fixpoint form_get (name : string) (form : list (string * UploadFile))
  : option UploadFile :=
  match form with
  | [] => None
  | (k, v) :: rest =>
      match form_get name rest with
      | Some v' => Some v'
      | None => if String.eqb k name then Some v else None
      end
  end.

Inductive Match := MatchFull (rt : Route) | MatchPartial | MatchNone.

(** Starlette's router: the first route whose path and method match; a path
    that matches with other methods only is a partial match. *)
Fixpoint find_route (rs : list Route) (rq : Request) : Match :=
  match rs with
  | [] => MatchNone
  | rt :: rest =>
      if String.eqb (rt_path rt) (rq_path rq) then
        if existsb (Method_eqb (rq_method rq)) (rt_methods rt) then MatchFull rt
        else
          match find_route rest rq with
          | MatchFull rt' => MatchFull rt'
          | _ => MatchPartial
          end
      else find_route rest rq
  end.

(** A matched route: for a path operation, validation of the required file
    parameter (422 without calling the endpoint), the endpoint, and the
    framework's answer to an exception it raises (500). *)
Definition run_route (rt : Route) (rq : Request) : M HTTPResponse :=
  match rt_handler rt with
  | PathOperation file_param endpoint =>
      match form_get file_param (rq_files rq) with
      | None => ret (FrameworkError 422)
      | Some file =>
          catch (r <- endpoint file ;; ret (FromEndpoint r))
                (fun _ _ => ret (FrameworkError 500))
      end
  | FrameworkPage => ret (FromFramework 200)
  end.

(** The router: a full match runs its route, a partial match is answered
    405; otherwise, if the path with its trailing slash added or removed is
    the path of a route, the answer is a redirect (307), else 404. *)
Definition router (a : FastAPI) (rq : Request) : M HTTPResponse :=
  match find_route (routes a) rq with
  | MatchFull rt => run_route rt rq
  | MatchPartial => ret (FrameworkError 405)
  | MatchNone =>
      if negb (String.eqb (rq_path rq) "/") &&
         existsb (fun rt => String.eqb (rt_path rt) (toggle_slash (rq_path rq)))
           (routes a)
      then ret (FromFramework 307)
      else ret (FrameworkError 404)
  end.

(** [CORSMiddleware.__call__] around [inner]: a preflight is answered by the
    middleware; any other request goes on to [inner] (to whose response the
    middleware adds headers when the request has an [Origin]). *)
Definition cors_middleware (c : CORSMiddleware)
  (inner : Request -> M HTTPResponse) (rq : Request) : M HTTPResponse :=
  if is_preflight rq then ret (preflight_response c rq) else inner rq.

(** One request through the application: the middleware of the user, the
    outermost first, then the router. *)
Definition handle (a : FastAPI) (rq : Request) : M HTTPResponse :=
  fold_right cors_middleware (router a) (user_middleware a) rq.

(** The response of [handle], which never raises. *)
Definition respond (a : FastAPI) (rq : Request) (w : World)
  : HTTPResponse * World :=
  match handle a rq w with
  | (Return r, w') => (r, w')
  | (Raised _ _, w') => (FrameworkError 500, w')
  end.

(** The process serving a sequence of requests, one after the other. *)
Fixpoint serve (a : FastAPI) (rqs : list Request) (w : World)
  : list HTTPResponse * World :=
  match rqs with
  | [] => ([], w)
  | rq :: rest =>
      let (r, w') := respond a rq w in
      let (rs, w'') := serve a rest w' in
      (r :: rs, w'')
  end.

(** The life of the process: import of the module, then the requests. *)
Definition run (rqs : list Request) : list HTTPResponse * World :=
  serve app rqs startup.

(** The requests the route of line 17 matches. *)
Definition routed (rq : Request) : Prop :=
  rq_method rq = POST /\ rq_path rq = "/api/remove-background".

(** The requests the documentation routes of [FastAPI()] match. *)
Definition documentation_request (rq : Request) : Prop :=
  In (rq_method rq) [GET; HEAD] /\
  In (rq_path rq) ["/openapi.json"; "/docs"; "/docs/oauth2-redirect"; "/redoc"].

(** A well-formed upload request for the endpoint. *)
Definition upload (f : UploadFile) : Request :=
  mkRequest POST "/api/remove-background" [] [("file", f)].

End Application.

(** ** Observations on requests and traces *)


Section Observations.

Context {pil : Pillow} {tb : TransparentBackground}.

(** The upload the router hands to the endpoint of the route a request
    matches, if the request gets to the router, matches a path operation and
    carries its file part. *)
Definition endpoint_argument (a : FastAPI) (rq : Request) : option UploadFile :=
  if existsb (fun c => is_preflight rq) (user_middleware a) then None
  else
    match find_route (routes a) rq with
    | MatchFull rt =>
        match rt_handler rt with
        | PathOperation file_param _ => form_get file_param (rq_files rq)
        | FrameworkPage => None
        end
    | _ => None
    end.

(** The requests whose upload reaches the endpoint and passes line 20. *)
Definition invokes_model (rq : Request) : bool :=
  match endpoint_argument app rq with
  | Some file =>
      match decode (file_content file) with
      | Ok _ => true
      | Raise _ => false
      end
  | None => false
  end.

(** The calls of one run of the endpoint on [file] with the model instance
    in state [r]: the read and the decoding, then each further call if the
    one before it succeeded. *)
Definition endpoint_calls (r : Remover) (file : UploadFile) : list Event :=
  EvRead file :: EvOpenBytesIO (file_content file) ::
  match Image_open (file_content file) with
  | Raise _ => []
  | Ok img =>
      EvConvert img RGB ::
      match Image_convert img RGB with
      | Raise _ => []
      | Ok rgb =>
          EvProcess rgb "rgba" ::
          match fst (Remover_process r rgb "rgba") with
          | Raise _ => []
          | Ok out => [EvSaveBytesIO out "PNG"]
          end
      end
  end.

(** The calls of one request: those of the endpoint, if the request reaches
    it. *)
Definition request_calls (r : Remover) (rq : Request) : list Event :=
  match endpoint_argument app rq with
  | Some file => endpoint_calls r file
  | None => []
  end.

End Observations.

(** ** Contracts of the libraries

    What the properties below assume of Pillow and of the model, each as a
    statement of its own. *)

Section Contracts.

Context {pil : Pillow} {tb : TransparentBackground}.

(** [Image.convert(m)] returns a bitmap of mode [m] ... *)
Definition convert_sets_mode : Prop :=
  forall im m out, Image_convert im m = Ok out -> im_mode out = m.

(** ... of the size of its argument. *)
Definition convert_keeps_size : Prop :=
  forall im m out, Image_convert im m = Ok out -> im_size out = im_size im.

(** Converting an RGB or RGBA bitmap to RGB keeps the three colour bands and
    drops the alpha band. *)
Definition convert_drops_alpha : Prop :=
  forall im out,
    has_rgb im -> Image_convert im RGB = Ok out -> out = drop_alpha im.

(** PNG is lossless for RGBA bitmaps: what [save] wrote, [open] reads back. *)
Definition png_lossless : Prop :=
  forall im b,
    im_mode im = RGBA -> Image_save im "PNG" = Ok b -> Image_open b = Ok im.

(** With [type='rgba'] the model returns an RGBA bitmap ... *)
Definition process_rgba_mode : Prop :=
  forall r im out,
    fst (Remover_process r im "rgba") = Ok out -> im_mode out = RGBA.

(** ... at the resolution of its input. *)
Definition process_keeps_size : Prop :=
  forall r im out,
    fst (Remover_process r im "rgba") = Ok out -> im_size out = im_size im.

(** [Remover.process] with [type='rgba'] leaves the instance as it found
    it. *)
Definition process_read_only : Prop :=
  forall r im, snd (Remover_process r im "rgba") = r.

(** The states an instance created as [r0] can be in after any number of
    calls of [process]. *)
Inductive reachable (r0 : Remover) : Remover -> Prop :=
| reach_new : reachable r0 r0
| reach_process r im ty :
    reachable r0 r -> reachable r0 (snd (Remover_process r im ty)).

(** A deterministic model: inference on a bitmap gives the same result
    whatever the instance was used for before. *)
Definition process_deterministic (r0 : Remover) : Prop :=
  forall r, reachable r0 r ->
  forall im ty,
    fst (Remover_process r im ty) = fst (Remover_process r0 im ty).

(** The runs of the endpoint on [file] from [w], stage by stage. *)
Inductive Pipeline (file : UploadFile) (w : World)
  : Outcome Response * World -> Prop :=
| PipeOpenFails e :
    Image_open (file_content file) = Raise e ->
    Pipeline file w
      (Raised Decode e,
       mkWorld (w_remover w)
         (w_trace w ++ [EvRead file; EvOpenBytesIO (file_content file)]))
| PipeConvertFails img e :
    Image_open (file_content file) = Ok img ->
    Image_convert img RGB = Raise e ->
    Pipeline file w
      (Raised Decode e,
       mkWorld (w_remover w)
         (w_trace w ++ [EvRead file; EvOpenBytesIO (file_content file);
                        EvConvert img RGB]))
| PipeProcessFails img rgb e :
    Image_open (file_content file) = Ok img ->
    Image_convert img RGB = Ok rgb ->
    fst (Remover_process (w_remover w) rgb "rgba") = Raise e ->
    Pipeline file w
      (Raised Infer e,
       mkWorld (snd (Remover_process (w_remover w) rgb "rgba"))
         (w_trace w ++ [EvRead file; EvOpenBytesIO (file_content file);
                        EvConvert img RGB; EvProcess rgb "rgba"]))
| PipeSaveFails img rgb out e :
    Image_open (file_content file) = Ok img ->
    Image_convert img RGB = Ok rgb ->
    fst (Remover_process (w_remover w) rgb "rgba") = Ok out ->
    Image_save out "PNG" = Raise e ->
    Pipeline file w
      (Raised Encode e,
       mkWorld (snd (Remover_process (w_remover w) rgb "rgba"))
         (w_trace w ++ [EvRead file; EvOpenBytesIO (file_content file);
                        EvConvert img RGB; EvProcess rgb "rgba";
                        EvSaveBytesIO out "PNG"]))
| PipeReturns img rgb out png :
    Image_open (file_content file) = Ok img ->
    Image_convert img RGB = Ok rgb ->
    fst (Remover_process (w_remover w) rgb "rgba") = Ok out ->
    Image_save out "PNG" = Ok png ->
    Pipeline file w
      (Return (mkResponse png 200 "image/png"),
       mkWorld (snd (Remover_process (w_remover w) rgb "rgba"))
         (w_trace w ++ [EvRead file; EvOpenBytesIO (file_content file);
                        EvConvert img RGB; EvProcess rgb "rgba";
                        EvSaveBytesIO out "PNG"])).

End Contracts.

(** ** An instance of the libraries

    A small uncompressed codec and a colour-key model, on which the
    definitions above can be run.  A file is a mode tag, a width byte, a
    height byte and one byte per sample. *)

Module Raw.

Definition mode_tag (m : Mode) : byte :=
  match m with
  | Mode1 => x01 | ModeL => x02 | ModeP => x03 | RGB => x04 | RGBA => x05
  | CMYK => x06 | YCbCr => x07 | LAB => x08 | HSV => x09
  | ModeI => x0a | ModeF => x0b | LA => x0c | PA => x0d
  end.

Definition tag_mode (b : byte) : option Mode :=
  match b with
  | x01 => Some Mode1 | x02 => Some ModeL | x03 => Some ModeP
  | x04 => Some RGB | x05 => Some RGBA | x06 => Some CMYK
  | x07 => Some YCbCr | x08 => Some LAB | x09 => Some HSV
  | x0a => Some ModeI | x0b => Some ModeF | x0c => Some LA | x0d => Some PA
  | _ => None
  end.

Definition get_sample (b : byte) : Z := Z.of_N (Byte.to_N b).

Definition put_sample (z : Z) : option byte :=
  if (z <? 0)%Z then None else Byte.of_N (Z.to_N z).

Fixpoint put_samples (l : list Z) : option bytes :=
  match l with
  | [] => Some []
  | z :: rest =>
      match put_sample z, put_samples rest with
      | Some b, Some bs => Some (b :: bs)
      | _, _ => None
      end
  end.

(** [n] consecutive chunks of [k] elements. *)
Fixpoint chunks {A} (k n : nat) (l : list A) : list (list A) :=
  match n with
  | O => []
  | S n' => firstn k l :: chunks k n' (skipn k l)
  end.

Definition well_shaped (im : Image) : bool :=
  Nat.eqb (List.length (im_data im)) (width im * height im) &&
  forallb (fun px => Nat.eqb (List.length px) (bands (im_mode im))) (im_data im).

Definition encode (im : Image) : option bytes :=
  if well_shaped im then
    match Byte.of_nat (width im), Byte.of_nat (height im),
          put_samples (List.concat (im_data im)) with
    | Some w, Some h, Some body => Some (mode_tag (im_mode im) :: w :: h :: body)
    | _, _, _ => None
    end
  else None.

Definition raw_open (b : bytes) : result Image :=
  match b with
  | t :: w :: h :: body =>
      match tag_mode t with
      | Some m =>
          let n := Byte.to_nat w * Byte.to_nat h in
          if Nat.eqb (List.length body) (n * bands m) then
            Ok (mkImage m (Byte.to_nat w, Byte.to_nat h)
                  (chunks (bands m) n (map get_sample body)))
          else Raise "OSError"
      | None => Raise "UnidentifiedImageError"
      end
  | _ => Raise "UnidentifiedImageError"
  end.

Definition grey_to_rgb (px : Pixel) : Pixel :=
  let l := firstn 1 px in l ++ l ++ l.

Definition raw_convert (im : Image) (m : Mode) : result Image :=
  match m with
  | RGB =>
      match im_mode im with
      | RGB | RGBA => Ok (drop_alpha im)
      | ModeL | LA => Ok (mkImage RGB (im_size im) (map grey_to_rgb (im_data im)))
      | _ => Raise "ValueError"
      end
  | _ => Raise "ValueError"
  end.

Definition raw_save (im : Image) (fmt : string) : result bytes :=
  if String.eqb fmt "PNG" then
    match encode im with
    | Some b => Ok b
    | None => Raise "OSError"
    end
  else Raise "KeyError".

#[export] Instance pillow : Pillow :=
  {| Image_open := raw_open;
     Image_convert := raw_convert;
     Image_save := raw_save |}.

(** A colour-key model: the pixels of the colour of the first pixel are
    background. *)
Definition key_alpha (bg px : Pixel) : Z :=
  if list_eq_dec Z.eq_dec px bg then 0%Z else 255%Z.

Definition key_image (im : Image) (ty : string) : result Image :=
  if String.eqb ty "rgba" then
    match im_mode im, im_data im with
    | RGB, bg :: _ =>
        Ok (mkImage RGBA (im_size im)
              (map (fun px => rgb_of px ++ [key_alpha bg px]) (im_data im)))
    | _, _ => Raise "ValueError"
    end
  else Raise "ValueError".

(** The model with no state of its own besides its configuration. *)
#[export] Instance keyer : TransparentBackground :=
  {| Remover := string * string;
     Remover_new := fun mode resize => (mode, resize);
     Remover_process := fun r im ty => (key_image im ty, r) |}.

(** The same model, counting its calls in the instance. *)
Definition counting_keyer : TransparentBackground :=
  {| Remover := nat;
     Remover_new := fun _ _ => O;
     Remover_process := fun r im ty => (key_image im ty, S r) |}.

(** A 2x1 RGBA bitmap, red then blue, and the same colours with other alpha
    values. *)
Definition red_blue : bytes :=
  [x05; x02; x01; xff; x00; x00; xff; x00; x00; xff; xff].

Definition red_blue_faded : bytes :=
  [x05; x02; x01; xff; x00; x00; x10; x00; x00; xff; x80].

(** Not an image: an unknown tag; a truncated file; a 0x0 bitmap, which
    decodes and on which the model fails. *)
Definition garbage : bytes := [x00; x01; x02].
Definition truncated : bytes := [x05; x02; x01; xff; x00].
Definition no_pixels : bytes := [x04; x00; x00].

Definition file_of (b : bytes) : UploadFile := mkUploadFile "upload" "image/png" b.

(** What the two files decode to, their common RGB conversion, and the PNG
    the colour-key model and the codec make of it. *)
Definition red_blue_image : Image :=
  mkImage RGBA (2, 1) [[255; 0; 0; 255]; [0; 0; 255; 255]]%Z.

Definition red_blue_faded_image : Image :=
  mkImage RGBA (2, 1) [[255; 0; 0; 16]; [0; 0; 255; 128]]%Z.

Definition red_blue_rgb : Image :=
  mkImage RGB (2, 1) [[255; 0; 0]; [0; 0; 255]]%Z.

Definition keyed_image : Image :=
  mkImage RGBA (2, 1) [[255; 0; 0; 0]; [0; 0; 255; 255]]%Z.

Definition keyed_png : bytes :=
  [x05; x02; x01; xff; x00; x00; x00; x00; x00; xff; xff].

(** A request for the route whose only file part has another name. *)
Definition misnamed : Request :=
  mkRequest POST "/api/remove-background" [] [("image", file_of red_blue)].

(** Requests the framework answers itself: the Swagger page, the route's
    path with a trailing slash, and a browser's preflight for a cross-origin
    POST. *)
Definition docs_page : Request := mkRequest GET "/docs" [] [].

Definition trailing_slash : Request :=
  mkRequest POST "/api/remove-background/" [] [("file", file_of red_blue)].

Definition preflight : Request :=
  mkRequest OPTIONS "/api/remove-background"
    [("origin", "https://example.org");
     ("access-control-request-method", "POST")] [].

End Raw.

(** ** The endpoint, stage by stage *)

Section Properties.

Context {pil : Pillow} {tb : TransparentBackground}.

Ltac flatten_trace :=
  cbn [w_remover w_trace]; repeat rewrite <- app_assoc; cbn [List.app].

(** Every run of the endpoint is one of the five runs of [Pipeline]. *)
Lemma endpoint_pipeline (file : UploadFile) (w : World) :
  Pipeline file w (remove_background_endpoint file w).
Proof.
  unfold remove_background_endpoint, UploadFile_read, PIL_Image_open,
    PIL_convert, PIL_save, remover_process, bind, emit, lift, ret.
  cbn [w_remover w_trace].
  destruct (Image_open (file_content file)) as [img|e] eqn:Hopen;
    flatten_trace; [|now apply PipeOpenFails].
  destruct (Image_convert img RGB) as [rgb|e] eqn:Hconv;
    flatten_trace; [|now apply PipeConvertFails].
  destruct (fst (Remover_process (w_remover w) rgb "rgba")) as [out|e] eqn:Hproc;
    flatten_trace; [|now apply PipeProcessFails].
  destruct (Image_save out "PNG") as [png|e] eqn:Hsave; flatten_trace.
  - now apply PipeReturns.
  - now apply PipeSaveFails.
Qed.

(** The endpoint returns exactly when its four library calls succeed. *)
Lemma endpoint_returns (file : UploadFile) (w : World) img rgb out png :
  Image_open (file_content file) = Ok img ->
  Image_convert img RGB = Ok rgb ->
  fst (Remover_process (w_remover w) rgb "rgba") = Ok out ->
  Image_save out "PNG" = Ok png ->
  remove_background_endpoint file w =
    (Return (mkResponse png 200 "image/png"),
     mkWorld (snd (Remover_process (w_remover w) rgb "rgba"))
       (w_trace w ++ [EvRead file; EvOpenBytesIO (file_content file);
                      EvConvert img RGB; EvProcess rgb "rgba";
                      EvSaveBytesIO out "PNG"])).
Proof.
  intros Hopen Hconv Hproc Hsave.
  destruct (endpoint_pipeline file w); congruence.
Qed.

Lemma decode_Ok (b : bytes) (rgb : Image) :
  decode b = Ok rgb <->
  exists img, Image_open b = Ok img /\ Image_convert img RGB = Ok rgb.
Proof.
  unfold decode. split.
  - destruct (Image_open b) as [img|e]; [eauto | discriminate].
  - intros (img & -> & H). exact H.
Qed.

(** The outcome of a run depends on the uploaded bytes through [decode], and
    on the model instance through the results of its inference. *)
Lemma endpoint_result_eq (f1 f2 : UploadFile) (w1 w2 : World) :
  decode (file_content f1) = decode (file_content f2) ->
  (forall im, fst (Remover_process (w_remover w1) im "rgba") =
              fst (Remover_process (w_remover w2) im "rgba")) ->
  fst (remove_background_endpoint f1 w1) = fst (remove_background_endpoint f2 w2).
Proof.
  intros Hd Hr. unfold decode in Hd.
  destruct (endpoint_pipeline f1 w1) as [e1 O1|i1 e1 O1 C1|i1 c1 e1 O1 C1 P1
                                         |i1 c1 o1 e1 O1 C1 P1 S1
                                         |i1 c1 o1 p1 O1 C1 P1 S1];
  destruct (endpoint_pipeline f2 w2) as [e2 O2|i2 e2 O2 C2|i2 c2 e2 O2 C2 P2
                                         |i2 c2 o2 e2 O2 C2 P2 S2
                                         |i2 c2 o2 p2 O2 C2 P2 S2];
  rewrite O1, O2 in Hd; try rewrite C1 in Hd; try rewrite C2 in Hd;
  try discriminate Hd; cbn [fst];
  try (injection Hd as ->);
  try (rewrite Hr in P1);
  congruence.
Qed.

(** With the same instance, the instance afterwards is the same too; the
    trace plays no part. *)
Lemma endpoint_depends_on_decode (f1 f2 : UploadFile) (w1 w2 : World) :
  decode (file_content f1) = decode (file_content f2) ->
  w_remover w1 = w_remover w2 ->
  fst (remove_background_endpoint f1 w1) = fst (remove_background_endpoint f2 w2)
  /\ w_remover (snd (remove_background_endpoint f1 w1)) =
     w_remover (snd (remove_background_endpoint f2 w2)).
Proof.
  intros Hd Hr. split.
  - apply endpoint_result_eq; [exact Hd | now rewrite Hr].
  - unfold decode in Hd.
    destruct (endpoint_pipeline f1 w1) as [e1 O1|i1 e1 O1 C1|i1 c1 e1 O1 C1 P1
                                           |i1 c1 o1 e1 O1 C1 P1 S1
                                           |i1 c1 o1 p1 O1 C1 P1 S1];
    destruct (endpoint_pipeline f2 w2) as [e2 O2|i2 e2 O2 C2|i2 c2 e2 O2 C2 P2
                                           |i2 c2 o2 e2 O2 C2 P2 S2
                                           |i2 c2 o2 p2 O2 C2 P2 S2];
    rewrite O1, O2 in Hd; try rewrite C1 in Hd; try rewrite C2 in Hd;
    try discriminate Hd; cbn [snd w_remover];
    try (injection Hd as ->);
    congruence.
Qed.

(** A property of the model instance that [process] preserves is preserved
    by the endpoint. *)
Lemma endpoint_preserves (P : Remover -> Prop) (file : UploadFile) (w : World) :
  (forall r im, P r -> P (snd (Remover_process r im "rgba"))) ->
  P (w_remover w) ->
  P (w_remover (snd (remove_background_endpoint file w))).
Proof.
  intros Hstep Hw.
  destruct (endpoint_pipeline file w); cbn [snd w_remover]; auto.
Qed.

(** The calls of one run: read, open, at most one conversion, inference and
    encoding, all on values in memory. *)
Lemma endpoint_trace (file : UploadFile) (w : World) :
  exists evs,
    w_trace (snd (remove_background_endpoint file w)) = w_trace w ++ evs /\
    forallb in_memory evs = true.
Proof.
  destruct (endpoint_pipeline file w); cbn [snd w_trace];
    eexists; (split; [reflexivity | reflexivity]).
Qed.

(** The calls of one run are those of [endpoint_calls]. *)
Lemma endpoint_calls_exact (file : UploadFile) (w : World) :
  w_trace (snd (remove_background_endpoint file w)) =
    w_trace w ++ endpoint_calls (w_remover w) file.
Proof.
  unfold endpoint_calls.
  destruct (endpoint_pipeline file w)
    as [e O|i e O C|i c e O C P|i c o e O C P S|i c o p O C P S];
    rewrite O; try rewrite C; try rewrite P; reflexivity.
Qed.

Lemma endpoint_calls_in_memory (r : Remover) (file : UploadFile) :
  forallb in_memory (endpoint_calls r file) = true.
Proof.
  unfold endpoint_calls.
  destruct (Image_open (file_content file)) as [img|]; [|reflexivity].
  destruct (Image_convert img RGB) as [rgb|]; [|reflexivity].
  destruct (fst (Remover_process r rgb "rgba")); reflexivity.
Qed.

(** ** Requests through the application *)

Lemma find_route_full (rs : list Route) (rq : Request) (rt : Route) :
  find_route rs rq = MatchFull rt ->
  In rt rs /\ rt_path rt = rq_path rq /\
  existsb (Method_eqb (rq_method rq)) (rt_methods rt) = true.
Proof.
  induction rs as [|r rs IH]; cbn [find_route]; [discriminate|].
  destruct (String.eqb_spec (rt_path r) (rq_path rq)) as [Hp|Hp].
  - destruct (existsb (Method_eqb (rq_method rq)) (rt_methods r)) eqn:Hm.
    + intros [= <-]. repeat split; auto. now left.
    + destruct (find_route rs rq) as [rt'| |]; try discriminate.
      intros [= <-]. destruct (IH eq_refl) as (H1 & H2 & H3).
      repeat split; auto. now right.
  - intros H. destruct (IH H) as (H1 & H2 & H3).
    repeat split; auto. now right.
Qed.

Lemma preflight_method (rq : Request) :
  is_preflight rq = true -> rq_method rq = OPTIONS.
Proof.
  unfold is_preflight. destruct (header "origin" rq); [|discriminate].
  destruct (rq_method rq); try discriminate. reflexivity.
Qed.

Lemma routed_not_preflight (rq : Request) :
  routed rq -> is_preflight rq = false.
Proof.
  intros [Hm _]. destruct (is_preflight rq) eqn:H; [|reflexivity].
  apply preflight_method in H. congruence.
Qed.

Lemma respond_preflight (rq : Request) (w : World) :
  is_preflight rq = true ->
  respond app rq w =
    (preflight_response (mkCORS ["*"] ["POST"] ["*"]) rq, w).
Proof.
  intros H. unfold respond, handle.
  cbn [app post add_middleware FastAPI_new user_middleware fold_right].
  unfold cors_middleware. rewrite H. reflexivity.
Qed.

Lemma respond_router (rq : Request) (w : World) :
  is_preflight rq = false ->
  respond app rq w =
    match router app rq w with
    | (Return r, w') => (r, w')
    | (Raised _ _, w') => (FrameworkError 500, w')
    end.
Proof.
  intros H. unfold respond, handle.
  cbn [app post add_middleware FastAPI_new user_middleware fold_right].
  unfold cors_middleware. rewrite H. reflexivity.
Qed.

Lemma preflight_response_body (c : CORSMiddleware) (rq : Request) :
  http_body (preflight_response c rq) = None.
Proof.
  unfold preflight_response.
  repeat match goal with
  | |- context [if ?b then FromFramework 200 else FrameworkError 400] =>
      destruct b
  end; reflexivity.
Qed.

(** The route of line 17 is the one a routed request matches. *)
Lemma routed_find (rq : Request) :
  routed rq ->
  find_route (routes app) rq =
    MatchFull (mkRoute [POST] "/api/remove-background"
                 (PathOperation "file" remove_background_endpoint)).
Proof.
  destruct rq as [m p h f]. intros [Hm Hp]. cbn in Hm, Hp. subst.
  reflexivity.
Qed.

(** A full match of the application is the route of line 17 or one of the
    documentation routes. *)
Lemma find_app (rq : Request) (rt : Route) :
  find_route (routes app) rq = MatchFull rt ->
  (routed rq /\
   rt_handler rt = PathOperation "file" remove_background_endpoint)
  \/ (documentation_request rq /\ rt_handler rt = FrameworkPage).
Proof.
  intros H. apply find_route_full in H as (Hin & Hp & Hm).
  cbn [app post add_middleware FastAPI_new routes List.app In] in Hin.
  unfold routed, documentation_request.
  destruct Hin as [<-|[<-|[<-|[<-|[<-|[]]]]]];
    cbn [rt_path rt_methods rt_handler existsb] in Hp, Hm |- *;
    rewrite <- Hp; destruct (rq_method rq); try discriminate Hm;
    cbn [In]; auto 10.
Qed.

Lemma documentation_not_routed (rq : Request) :
  documentation_request rq -> ~ routed rq.
Proof.
  intros [Hm _] [Hr _]. rewrite Hr in Hm.
  cbn [In] in Hm. destruct Hm as [H|[H|[]]]; discriminate H.
Qed.

(** The answers of the application.  Those of the framework leave the
    process as it is and do not depend on it. *)
Lemma respond_classified (rq : Request) :
  (is_preflight rq = true /\ ~ routed rq /\
   endpoint_argument app rq = None /\
   forall w, respond app rq w =
               (preflight_response (mkCORS ["*"] ["POST"] ["*"]) rq, w))
  \/ (is_preflight rq = false /\ documentation_request rq /\
      endpoint_argument app rq = None /\
      forall w, respond app rq w = (FromFramework 200, w))
  \/ (is_preflight rq = false /\ ~ routed rq /\
      ~ documentation_request rq /\
      endpoint_argument app rq = None /\
      exists r,
        In r [FrameworkError 405; FromFramework 307; FrameworkError 404] /\
        forall w, respond app rq w = (r, w))
  \/ (routed rq /\ form_get "file" (rq_files rq) = None /\
      endpoint_argument app rq = None /\
      forall w, respond app rq w = (FrameworkError 422, w))
  \/ (exists file,
        routed rq /\ form_get "file" (rq_files rq) = Some file /\
        endpoint_argument app rq = Some file /\
        forall w,
          respond app rq w =
            match remove_background_endpoint file w with
            | (Return r, w') => (FromEndpoint r, w')
            | (Raised _ _, w') => (FrameworkError 500, w')
            end).
Proof.
  assert (endpoint_argument app rq =
          if is_preflight rq then None
          else match find_route (routes app) rq with
               | MatchFull rt =>
                   match rt_handler rt with
                   | PathOperation file_param _ =>
                       form_get file_param (rq_files rq)
                   | FrameworkPage => None
                   end
               | _ => None
               end) as Harg.
  { unfold endpoint_argument.
    cbn [app post add_middleware FastAPI_new user_middleware existsb].
    now rewrite orb_false_r. }
  destruct (is_preflight rq) eqn:Hpre.
  { left. repeat split; auto.
    - intros [Hm _]. apply preflight_method in Hpre. congruence.
    - intros w. now apply respond_preflight. }
  right.
  assert (forall w, respond app rq w =
            match router app rq w with
            | (Return r, w') => (r, w')
            | (Raised _ _, w') => (FrameworkError 500, w')
            end) as Hresp by (intros w; now apply respond_router).
  unfold router in Hresp.
  destruct (find_route (routes app) rq) as [rt| |] eqn:Hfind.
  - destruct (find_app rq rt Hfind) as [[Hr Hh]|[Hd Hh]].
    + right; right. unfold run_route in Hresp. rewrite Hh in Hresp, Harg.
      destruct (form_get "file" (rq_files rq)) as [file|] eqn:Hf.
      * right. exists file. repeat split; try apply Hr; auto.
        intros w. rewrite Hresp. unfold catch, bind, ret.
        destruct (remove_background_endpoint file w) as [[r|s e] w'];
          reflexivity.
      * left. repeat split; try apply Hr; auto.
    + left. unfold run_route in Hresp. rewrite Hh in Hresp, Harg.
      repeat split; try apply Hd; auto.
  - right; left. repeat split; auto.
    + intros Hr. rewrite (routed_find rq Hr) in Hfind. discriminate.
    + intros Hd.
      destruct Hd as [Hm Hp].
      destruct rq as [m p h f]. cbn [rq_method rq_path] in *.
      cbn [In] in Hm, Hp.
      destruct Hm as [<-|[<-|[]]];
        destruct Hp as [<-|[<-|[<-|[<-|[]]]]]; discriminate Hfind.
    + exists (FrameworkError 405). split; [cbn; auto|exact Hresp].
  - right; left. repeat split; auto.
    + intros Hr. rewrite (routed_find rq Hr) in Hfind. discriminate.
    + intros [Hm Hp].
      destruct rq as [m p h f]. cbn [rq_method rq_path] in *.
      cbn [In] in Hm, Hp.
      destruct Hm as [<-|[<-|[]]];
        destruct Hp as [<-|[<-|[<-|[<-|[]]]]]; discriminate Hfind.
    + destruct (negb (String.eqb (rq_path rq) "/") &&
                existsb
                  (fun rt => String.eqb (rt_path rt) (toggle_slash (rq_path rq)))
                  (routes app)).
      * exists (FromFramework 307). split; [cbn; auto|exact Hresp].
      * exists (FrameworkError 404). split; [cbn; auto|exact Hresp].
Qed.

(** The three kinds of answer: the framework's own, the 422 of the missing
    file part, and the endpoint's. *)
Lemma respond_cases (rq : Request) :
  (~ routed rq /\ endpoint_argument app rq = None /\
   exists r, http_body r = None /\ forall w, respond app rq w = (r, w))
  \/ (routed rq /\ form_get "file" (rq_files rq) = None /\
      endpoint_argument app rq = None /\
      forall w, respond app rq w = (FrameworkError 422, w))
  \/ (exists file,
        routed rq /\ form_get "file" (rq_files rq) = Some file /\
        endpoint_argument app rq = Some file /\
        forall w,
          respond app rq w =
            match remove_background_endpoint file w with
            | (Return r, w') => (FromEndpoint r, w')
            | (Raised _ _, w') => (FrameworkError 500, w')
            end).
Proof.
  destruct (respond_classified rq)
    as [(P & R & A & E)|[(P & D & A & E)|[(P & R & D & A & r & I & E)
       |[H|H]]]]; auto.
  - left. repeat split; auto. eexists. split; [|exact E].
    apply preflight_response_body.
  - left. repeat split; auto using documentation_not_routed.
    eexists. split; [|exact E]. reflexivity.
  - left. repeat split; auto. exists r. split; [|exact E].
    cbn [In] in I. destruct I as [<-|[<-|[<-|[]]]]; reflexivity.
Qed.

(** A request the route matches, with its file part, reaches the endpoint;
    an exception of the endpoint becomes a 500. *)
Lemma respond_routed (rq : Request) (file : UploadFile) (w : World) :
  routed rq ->
  form_get "file" (rq_files rq) = Some file ->
  respond app rq w =
    match remove_background_endpoint file w with
    | (Return r, w') => (FromEndpoint r, w')
    | (Raised _ _, w') => (FrameworkError 500, w')
    end.
Proof.
  intros Hr Hf.
  destruct (respond_cases rq) as [(R & _)|[(_ & B & _)|(f & _ & B & _ & E)]];
    try contradiction; try congruence.
  assert (f = file) as -> by congruence. apply E.
Qed.

Lemma upload_routed (file : UploadFile) : routed (upload file).
Proof. split; reflexivity. Qed.

Lemma upload_file (file : UploadFile) :
  form_get "file" (rq_files (upload file)) = Some file.
Proof. reflexivity. Qed.

Lemma respond_upload (file : UploadFile) (w : World) :
  respond app (upload file) w =
    match remove_background_endpoint file w with
    | (Return r, w') => (FromEndpoint r, w')
    | (Raised _ _, w') => (FrameworkError 500, w')
    end.
Proof. apply respond_routed; [apply upload_routed | apply upload_file]. Qed.

Lemma serve_cons (a : FastAPI) (rq : Request) (rest : list Request) (w : World) :
  serve a (rq :: rest) w =
    (fst (respond a rq w) :: fst (serve a rest (snd (respond a rq w))),
     snd (serve a rest (snd (respond a rq w)))).
Proof.
  cbn [serve]. destruct (respond a rq w) as [r w']. cbn [fst snd].
  destruct (serve a rest w') as [rs w'']. reflexivity.
Qed.

Lemma respond_preserves (P : Remover -> Prop) (rq : Request) (w : World) :
  (forall r im, P r -> P (snd (Remover_process r im "rgba"))) ->
  P (w_remover w) ->
  P (w_remover (snd (respond app rq w))).
Proof.
  intros Hstep Hw.
  destruct (respond_cases rq)
    as [(_ & _ & r & _ & E)|[(_ & _ & _ & E)|(file & _ & _ & _ & E)]];
    rewrite E; cbn [snd]; auto.
  pose proof (endpoint_preserves P file w Hstep Hw) as H.
  destruct (remove_background_endpoint file w) as [[r|s e] w']; exact H.
Qed.

Lemma serve_preserves (P : Remover -> Prop) (rqs : list Request) :
  (forall r im, P r -> P (snd (Remover_process r im "rgba"))) ->
  forall w, P (w_remover w) -> P (w_remover (snd (serve app rqs w))).
Proof.
  intros Hstep. induction rqs as [|rq rest IH]; intros w Hw.
  - exact Hw.
  - rewrite serve_cons. cbn [snd]. apply IH. now apply respond_preserves.
Qed.

(** The calls of one request are those of [request_calls]. *)
Lemma respond_calls_exact (rq : Request) (w : World) :
  w_trace (snd (respond app rq w)) =
    w_trace w ++ request_calls (w_remover w) rq.
Proof.
  unfold request_calls.
  destruct (respond_cases rq)
    as [(_ & A & r & _ & E)|[(_ & _ & A & E)|(file & _ & _ & A & E)]];
    rewrite E, A; cbn [snd]; try now rewrite app_nil_r.
  pose proof (endpoint_calls_exact file w) as H.
  destruct (remove_background_endpoint file w) as [[r|s e] w']; exact H.
Qed.

Lemma request_calls_in_memory (r : Remover) (rq : Request) :
  forallb in_memory (request_calls r rq) = true.
Proof.
  unfold request_calls. destruct (endpoint_argument app rq); [|reflexivity].
  apply endpoint_calls_in_memory.
Qed.

Lemma respond_trace (rq : Request) (w : World) :
  exists evs,
    w_trace (snd (respond app rq w)) = w_trace w ++ evs /\
    forallb in_memory evs = true.
Proof.
  exists (request_calls (w_remover w) rq).
  split; [apply respond_calls_exact | apply request_calls_in_memory].
Qed.

Lemma serve_trace (rqs : list Request) :
  forall w, exists evs,
    w_trace (snd (serve app rqs w)) = w_trace w ++ evs /\
    forallb in_memory evs = true.
Proof.
  induction rqs as [|rq rest IH]; intros w.
  - exists []. split; [now rewrite app_nil_r | reflexivity].
  - rewrite serve_cons. cbn [snd].
    destruct (respond_trace rq w) as (e1 & H1 & F1).
    destruct (IH (snd (respond app rq w))) as (e2 & H2 & F2).
    exists (e1 ++ e2). split.
    + rewrite H2, H1. now rewrite app_assoc.
    + rewrite forallb_app, F1, F2. reflexivity.
Qed.

(** With a read-only model, the calls of a sequence of requests are those of
    its requests, each made with the instance as it was at first. *)
Lemma serve_calls_exact (rqs : list Request) :
  process_read_only ->
  forall w,
    w_trace (snd (serve app rqs w)) =
      w_trace w ++ flat_map (request_calls (w_remover w)) rqs.
Proof.
  intros Hro. induction rqs as [|rq rest IH]; intros w.
  - cbn [serve snd flat_map]. now rewrite app_nil_r.
  - rewrite serve_cons. cbn [snd flat_map]. rewrite IH, respond_calls_exact.
    assert (w_remover (snd (respond app rq w)) = w_remover w) as ->.
    { apply (respond_preserves (fun r => r = w_remover w)); [|reflexivity].
      intros r im ->. apply Hro. }
    now rewrite app_assoc.
Qed.

(** Responses and the model instance do not depend on the trace. *)
Lemma respond_ignores_trace (rq : Request) (w1 w2 : World) :
  w_remover w1 = w_remover w2 ->
  fst (respond app rq w1) = fst (respond app rq w2) /\
  w_remover (snd (respond app rq w1)) = w_remover (snd (respond app rq w2)).
Proof.
  intros Hr.
  destruct (respond_cases rq)
    as [(_ & _ & r & _ & E)|[(_ & _ & _ & E)|(file & _ & _ & _ & E)]];
    rewrite !E; cbn [fst snd]; auto.
  pose proof (endpoint_depends_on_decode file file w1 w2 eq_refl Hr)
    as [Hres Hrem].
  destruct (remove_background_endpoint file w1) as [[r1|s1 e1] w1'];
  destruct (remove_background_endpoint file w2) as [[r2|s2 e2] w2'];
  cbn [fst snd] in *; try discriminate Hres; split; congruence.
Qed.

Lemma serve_ignores_trace (rqs : list Request) :
  forall w1 w2,
    w_remover w1 = w_remover w2 ->
    fst (serve app rqs w1) = fst (serve app rqs w2) /\
    w_remover (snd (serve app rqs w1)) = w_remover (snd (serve app rqs w2)).
Proof.
  induction rqs as [|rq rest IH]; intros w1 w2 Hr.
  - split; [reflexivity | exact Hr].
  - rewrite !serve_cons. cbn [fst snd].
    destruct (respond_ignores_trace rq w1 w2 Hr) as [H1 H2].
    destruct (IH _ _ H2) as [H3 H4].
    split; [now rewrite H1, H3 | exact H4].
Qed.

Lemma serve_app (a : FastAPI) (l1 l2 : list Request) :
  forall w,
    serve a (l1 ++ l2) w =
      (fst (serve a l1 w) ++ fst (serve a l2 (snd (serve a l1 w))),
       snd (serve a l2 (snd (serve a l1 w)))).
Proof.
  induction l1 as [|rq rest IH]; intros w.
  - cbn [List.app serve fst snd]. now destruct (serve a l2 w).
  - rewrite <- app_comm_cons, !serve_cons, IH. reflexivity.
Qed.

Lemma serve_length (a : FastAPI) (rqs : list Request) :
  forall w, List.length (fst (serve a rqs w)) = List.length rqs.
Proof.
  induction rqs as [|rq rest IH]; intros w; [reflexivity|].
  rewrite serve_cons. cbn [fst List.length]. now rewrite IH.
Qed.

Lemma in_memory_not_RemoverNew (evs : list Event) :
  forallb in_memory evs = true -> filter is_RemoverNew evs = [].
Proof.
  induction evs as [|ev evs IH]; [reflexivity|].
  cbn [forallb filter]. intros H. apply andb_prop in H as [H1 H2].
  destruct ev; cbn in H1 |- *; try discriminate H1; auto.
Qed.

(** A run of the endpoint's body always leaves calls in the trace. *)
Lemma endpoint_leaves_trace (file : UploadFile) (w : World) :
  w_trace (snd (remove_background_endpoint file w)) <> w_trace w.
Proof.
  intros H. apply (f_equal (@List.length Event)) in H.
  destruct (endpoint_pipeline file w); cbn [snd w_trace] in H;
    rewrite length_app in H; cbn [List.length] in H; lia.
Qed.


(** An upload that is not decodable makes the endpoint raise from its decode
    stage, before the model is called. *)
Lemma undecodable_raises (file : UploadFile) (w : World) :
  ~ decodable (file_content file) ->
  exists e w',
    remove_background_endpoint file w = (Raised Decode e, w') /\
    w_remover w' = w_remover w.
Proof.
  intros Hnd.
  destruct (endpoint_pipeline file w)
    as [e O|i e O C|i c e O C P|i c o e O C P S|i c o p O C P S];
    try (eexists; eexists; split; reflexivity);
    exfalso; apply Hnd; exists c; apply decode_Ok; eauto.
Qed.

Lemma respond_undecodable (file : UploadFile) (w : World) :
  ~ decodable (file_content file) ->
  fst (respond app (upload file) w) = FrameworkError 500.
Proof.
  intros Hnd. destruct (undecodable_raises file w Hnd) as (e & w' & Hrun & _).
  now rewrite respond_upload, Hrun.
Qed.

End Properties.

(** ** Properties of the service *)

Section Claims.

Context {pil : Pillow} {tb : TransparentBackground}.

Ltac run_cases file w H :=
  let HP := fresh "HP" in
  pose proof (endpoint_pipeline file w) as HP;
  rewrite H in HP; inversion HP; subst; clear HP.

(** C1. For an upload that decodes to a bitmap [img], the bitmap the endpoint
    produces, which is also what the PNG of the response body decodes to, has
    the width and the height of [img].  The endpoint adds no resizing of its
    own; conversion and model keep the size by their contracts. *)
Theorem output_dimensions
  (file : UploadFile) (w w' : World) (img : Image) (resp : Response) :
  convert_keeps_size -> process_keeps_size ->
  process_rgba_mode -> png_lossless ->
  Image_open (file_content file) = Ok img ->
  remove_background_endpoint file w = (Return resp, w') ->
  exists out,
    Image_save out "PNG" = Ok (content resp) /\
    Image_open (content resp) = Ok out /\
    width out = width img /\ height out = height img.
Proof.
  intros Hconv Hproc Hmode Hpng Hopen Hrun.
  run_cases file w Hrun.
  match goal with
  | Ho : Image_open _ = Ok ?i, Hc : Image_convert ?i RGB = Ok ?rgb,
    Hp : fst (Remover_process _ ?rgb _) = Ok ?out,
    Hs : Image_save ?out _ = Ok _ |- _ =>
      exists out; cbn [content];
      assert (i = img) as -> by congruence;
      pose proof (Hconv _ _ _ Hc) as E1;
      pose proof (Hproc _ _ _ Hp) as E2;
      pose proof (Hpng _ _ (Hmode _ _ _ Hp) Hs) as E3
  end.
  unfold width, height. rewrite E2, E1. auto.
Qed.

(** C2. For a decodable upload, the response body is the PNG encoding of the
    bitmap the model returned for [type='rgba']: an RGBA bitmap (four bands),
    encoded as it is, so that its alpha band is the model's mask; and the
    endpoint returns that body whenever model and encoder succeed. *)
Theorem output_is_rgba_png (file : UploadFile) (w : World) (rgb : Image) :
  process_rgba_mode -> png_lossless ->
  decode (file_content file) = Ok rgb ->
  (forall resp w',
     remove_background_endpoint file w = (Return resp, w') ->
     exists out,
       fst (Remover_process (w_remover w) rgb "rgba") = Ok out /\
       Image_save out "PNG" = Ok (content resp) /\
       im_mode out = RGBA /\ bands (im_mode out) = 4 /\
       Image_open (content resp) = Ok out)
  /\
  (forall out png,
     fst (Remover_process (w_remover w) rgb "rgba") = Ok out ->
     Image_save out "PNG" = Ok png ->
     fst (remove_background_endpoint file w) =
       Return (mkResponse png 200 "image/png")).
Proof.
  intros Hmode Hpng Hdec.
  apply decode_Ok in Hdec as (img & Hopen & Hconv). split.
  - intros resp w' Hrun. run_cases file w Hrun.
    match goal with
    | Hc : Image_convert _ RGB = Ok ?c,
      Hp : fst (Remover_process _ ?c _) = Ok ?out,
      Hs : Image_save ?out _ = Ok _ |- _ =>
        assert (c = rgb) as -> by congruence;
        exists out; cbn [content];
        pose proof (Hmode _ _ _ Hp) as E
    end.
    rewrite E. repeat split; auto.
  - intros out png Hp Hs.
    now rewrite (endpoint_returns file w img rgb out png).
Qed.

(** C3. The endpoint raises from its decode stage exactly when the uploaded
    bytes are not decodable.  The client then receives the framework's 500
    and no body of the endpoint, the model instance is untouched, and the
    requests that follow are answered as if the failed one had not been
    made. *)
Theorem decode_error_iff (file : UploadFile) (w : World) :
  (~ decodable (file_content file) <->
   exists e, fst (remove_background_endpoint file w) = Raised Decode e)
  /\
  (~ decodable (file_content file) ->
   fst (respond app (upload file) w) = FrameworkError 500 /\
   http_body (fst (respond app (upload file) w)) = None /\
   w_remover (snd (respond app (upload file) w)) = w_remover w /\
   forall rest,
     fst (serve app (upload file :: rest) w) =
       FrameworkError 500 :: fst (serve app rest w)).
Proof.
  pose proof (undecodable_raises file w) as Hfail.
  split; [split|].
  - intros Hnd. destruct (Hfail Hnd) as (e & w' & -> & _). now exists e.
  - intros [e He] [rgb Hd]. apply decode_Ok in Hd as (img & Hopen & Hconv).
    destruct (endpoint_pipeline file w); cbn [fst] in He; congruence.
  - intros Hnd. destruct (Hfail Hnd) as (e & w' & Hrun & Hrem).
    assert (respond app (upload file) w = (FrameworkError 500, w')) as Hresp
      by (rewrite respond_upload, Hrun; reflexivity).
    rewrite Hresp. cbn [fst snd http_body]. repeat split; auto.
    intros rest. rewrite serve_cons, Hresp. cbn [fst snd]. f_equal.
    apply serve_ignores_trace. exact Hrem.
Qed.

(** C4. For a decodable upload, the endpoint makes exactly one inference
    call; its argument is the decoded bitmap converted to RGB (three bands),
    and the calls before it are the read, the decoding and that conversion. *)
Theorem model_input_is_rgb (file : UploadFile) (w : World) (rgb : Image) :
  convert_sets_mode ->
  decode (file_content file) = Ok rgb ->
  im_mode rgb = RGB /\ bands (im_mode rgb) = 3 /\
  exists img rest,
    Image_open (file_content file) = Ok img /\
    Image_convert img RGB = Ok rgb /\
    w_trace (snd (remove_background_endpoint file w)) =
      w_trace w ++
      [EvRead file; EvOpenBytesIO (file_content file); EvConvert img RGB;
       EvProcess rgb "rgba"] ++ rest /\
    filter is_Process rest = [].
Proof.
  intros Hmode Hdec.
  apply decode_Ok in Hdec as (img & Hopen & Hconv).
  pose proof (Hmode _ _ _ Hconv) as E. rewrite E.
  repeat split; auto. exists img.
  destruct (endpoint_pipeline file w)
    as [e O|i e O C|i c e O C P|i c o e O C P S|i c o p O C P S];
    try congruence;
    assert (i = img) as -> by congruence;
    assert (c = rgb) as -> by congruence;
    cbn [snd w_trace].
  - exists []. auto.
  - exists [EvSaveBytesIO o "PNG"]. auto.
  - exists [EvSaveBytesIO o "PNG"]. auto.
Qed.

(** C5 (amended). Besides the documentation routes that [FastAPI()]
    registers by default (GET and HEAD on /openapi.json, /docs,
    /docs/oauth2-redirect and /redoc), the application exposes one route,
    POST /api/remove-background with one required file field: apart from CORS
    preflights, which the middleware answers, the requests matched by these
    routes are the ones not answered 404, 405 or by a redirect; only a
    request for the upload route receives a response of the endpoint; and
    when the endpoint returns, the client receives status 200, content type
    image/png and the PNG bytes as body. *)
Theorem upload_route_and_documentation :
  (forall rq w,
     is_preflight rq = false ->
     (routed rq \/ documentation_request rq <->
      http_status (fst (respond app rq w)) <> 404%Z /\
      http_status (fst (respond app rq w)) <> 405%Z /\
      http_status (fst (respond app rq w)) <> 307%Z))
  /\
  (forall rq w resp,
     fst (respond app rq w) = FromEndpoint resp ->
     routed rq /\ exists file, form_get "file" (rq_files rq) = Some file)
  /\
  (forall rq file w resp w',
     routed rq ->
     form_get "file" (rq_files rq) = Some file ->
     remove_background_endpoint file w = (Return resp, w') ->
     respond app rq w = (FromEndpoint resp, w') /\
     http_status (FromEndpoint resp) = 200%Z /\
     http_media_type (FromEndpoint resp) = Some "image/png" /\
     exists out,
       Image_save out "PNG" = Ok (content resp) /\
       http_body (FromEndpoint resp) = Some (content resp)).
Proof.
  split; [|split].
  - intros rq w Hpre.
    destruct (respond_classified rq)
      as [(P & _)|[(_ & D & _ & E)|[(_ & R & D & _ & r & I & E)
         |[(R & _ & _ & E)|(f & R & _ & _ & E)]]]];
      try congruence; rewrite E; cbn [fst http_status].
    + split; [intros _; repeat split; discriminate | auto].
    + split.
      * intros [H|H]; contradiction.
      * cbn [In] in I. destruct I as [<-|[<-|[<-|[]]]]; cbn [http_status];
          intros (H1 & H2 & H3); congruence.
    + split; [intros _; repeat split; discriminate | auto].
    + split; [intros _|auto].
      destruct (endpoint_pipeline f w); cbn [fst http_status status_code];
        repeat split; discriminate.
  - intros rq w resp H.
    destruct (respond_cases rq)
      as [(_ & _ & r & Hb & E)|[(_ & _ & _ & E)|(f & R & Hf & _ & E)]];
      rewrite E in H; cbn [fst] in H.
    + subst r. discriminate Hb.
    + discriminate H.
    + split; [exact R | now exists f].
  - intros rq file w resp w' Hr Hf Hrun.
    rewrite (respond_routed rq file w Hr Hf), Hrun.
    run_cases file w Hrun. cbn. repeat split; eauto.
Qed.

(** C6. Over the whole life of the process the model instance is created
    once, by the first call made, before any request.  The calls after it are
    exactly those of the endpoint for the requests that reach it (read,
    decode, convert, infer, encode), all on values in memory: no file is
    written and nothing is logged.  The handler never rebinds [remover];
    [process] being read-only, every request is answered with the instance
    in the state in which it was created, and as the freshly started process
    would answer it. *)
Theorem model_created_once (rqs : list Request) :
  process_read_only ->
  w_remover (snd (run rqs)) = Remover_new "fast" "dynamic" /\
  w_trace (snd (run rqs)) =
    EvRemoverNew "fast" "dynamic" ::
    flat_map (request_calls (Remover_new "fast" "dynamic")) rqs /\
  (exists evs,
     w_trace (snd (run rqs)) = EvRemoverNew "fast" "dynamic" :: evs /\
     forallb in_memory evs = true) /\
  List.length (filter is_RemoverNew (w_trace (snd (run rqs)))) = 1 /\
  (forall pre rq post,
     rqs = pre ++ rq :: post ->
     w_remover (snd (run pre)) = Remover_new "fast" "dynamic" /\
     nth_error (fst (run rqs)) (List.length pre) =
       Some (fst (respond app rq (snd (run pre)))) /\
     fst (respond app rq (snd (run pre))) = fst (respond app rq startup)).
Proof.
  intros Hro.
  assert (forall l, w_remover (snd (run l)) = Remover_new "fast" "dynamic")
    as Hinv.
  { intros l. unfold run.
    apply (serve_preserves (fun r => r = Remover_new "fast" "dynamic")).
    - intros r im ->. apply Hro.
    - reflexivity. }
  pose proof (serve_calls_exact rqs Hro startup) as Hexact.
  change (w_trace startup ++
          flat_map (request_calls (w_remover startup)) rqs)
    with (EvRemoverNew "fast" "dynamic" ::
          flat_map (request_calls (Remover_new "fast" "dynamic")) rqs)
    in Hexact.
  fold (run rqs) in Hexact.
  assert (forallb in_memory
            (flat_map (request_calls (Remover_new "fast" "dynamic")) rqs)
          = true) as Hmem.
  { clear. induction rqs as [|rq rest IH]; [reflexivity|].
    cbn [flat_map]. now rewrite forallb_app, request_calls_in_memory, IH. }
  repeat split.
  - apply Hinv.
  - exact Hexact.
  - eexists. split; [exact Hexact | exact Hmem].
  - rewrite Hexact. cbn [filter is_RemoverNew].
    now rewrite (in_memory_not_RemoverNew _ Hmem).
  - apply Hinv.
  - subst rqs. unfold run. rewrite serve_app. cbn [fst].
    rewrite nth_error_app2 by (rewrite serve_length; lia).
    rewrite serve_length, Nat.sub_diag, serve_cons. reflexivity.
  - apply respond_ignores_trace. apply Hinv.
Qed.

(** C7. With a deterministic model, the response to an upload is a function
    of the uploaded bytes: whatever requests the process served before, two
    uploads of the same bytes receive the same response, in particular two
    uploads in a row. *)
Theorem endpoint_deterministic (rqs1 rqs2 : list Request) (f1 f2 : UploadFile) :
  process_deterministic (Remover_new "fast" "dynamic") ->
  file_content f1 = file_content f2 ->
  fst (respond app (upload f1) (snd (run rqs1))) =
  fst (respond app (upload f2) (snd (run rqs2)))
  /\
  fst (serve app [upload f1; upload f2] (snd (run rqs1))) =
    [fst (respond app (upload f1) (snd (run rqs1)));
     fst (respond app (upload f1) (snd (run rqs1)))].
Proof.
  intros Hdet Hbytes.
  assert (forall l, reachable (Remover_new "fast" "dynamic")
                      (w_remover (snd (run l)))) as Hreach.
  { intros l. unfold run. apply serve_preserves.
    - intros r im Hr. now apply reach_process.
    - apply reach_new. }
  assert (forall w1 w2,
            reachable (Remover_new "fast" "dynamic") (w_remover w1) ->
            reachable (Remover_new "fast" "dynamic") (w_remover w2) ->
            fst (respond app (upload f1) w1) =
            fst (respond app (upload f2) w2)) as Hsame.
  { intros w1 w2 H1 H2. rewrite !respond_upload.
    pose proof (endpoint_result_eq f1 f2 w1 w2) as Heq.
    rewrite Hbytes in Heq. specialize (Heq eq_refl).
    assert (forall im,
              fst (Remover_process (w_remover w1) im "rgba") =
              fst (Remover_process (w_remover w2) im "rgba")) as Hr
      by (intros im; now rewrite (Hdet _ H1), (Hdet _ H2)).
    specialize (Heq Hr).
    destruct (remove_background_endpoint f1 w1) as [[r1|s1 e1] w1'];
    destruct (remove_background_endpoint f2 w2) as [[r2|s2 e2] w2'];
    cbn [fst] in *; congruence. }
  split.
  - apply Hsame; apply Hreach.
  - rewrite !serve_cons. cbn [serve fst snd]. do 2 f_equal.
    symmetry. apply Hsame; [apply Hreach|].
    apply respond_preserves; [|apply Hreach].
    intros r im Hr. now apply reach_process.
Qed.

(** C8. A request for the route without a file part named [file] is answered
    422 by the framework and leaves the process as it was: the endpoint's
    body, every run of which leaves calls in the trace, has not run.  The
    answer differs from that to an undecodable upload. *)
Theorem missing_file_rejected (rq : Request) (w : World) :
  routed rq ->
  form_get "file" (rq_files rq) = None ->
  respond app rq w = (FrameworkError 422, w) /\
  (forall file, snd (remove_background_endpoint file w) <> snd (respond app rq w)) /\
  (forall bad w0,
     ~ decodable (file_content bad) ->
     fst (respond app (upload bad) w0) = FrameworkError 500 /\
     fst (respond app rq w) <> fst (respond app (upload bad) w0)).
Proof.
  intros Hr Hf.
  assert (respond app rq w = (FrameworkError 422, w)) as E.
  { destruct (respond_cases rq)
      as [(R & _)|[(_ & _ & _ & E)|(f & _ & B & _)]];
      [contradiction | apply E | congruence]. }
  rewrite E. cbn [fst snd]. repeat split.
  - intros file H. apply (endpoint_leaves_trace file w). now rewrite H.
  - now apply respond_undecodable.
  - rewrite (respond_undecodable bad w0 H). discriminate.
Qed.

(** C9. The response depends on the upload through the RGB conversion of
    its decoded bitmap only: uploads with the same [decode] receive the same
    response, and so do two decodable uploads whose RGB or RGBA bitmaps agree
    on their colour bands, whatever their alpha bands. *)
Theorem alpha_ignored (f1 f2 : UploadFile) (w : World) :
  (decode (file_content f1) = decode (file_content f2) ->
   fst (respond app (upload f1) w) = fst (respond app (upload f2) w))
  /\
  (convert_drops_alpha ->
   forall i1 i2,
     Image_open (file_content f1) = Ok i1 ->
     Image_open (file_content f2) = Ok i2 ->
     decodable (file_content f1) -> decodable (file_content f2) ->
     agree_rgb i1 i2 ->
     fst (respond app (upload f1) w) = fst (respond app (upload f2) w)).
Proof.
  assert (decode (file_content f1) = decode (file_content f2) ->
          fst (respond app (upload f1) w) = fst (respond app (upload f2) w))
    as Hdec.
  { intros Hd. rewrite !respond_upload.
    destruct (endpoint_depends_on_decode f1 f2 w w Hd eq_refl) as [Hres _].
    destruct (remove_background_endpoint f1 w) as [[r1|s1 e1] w1'];
    destruct (remove_background_endpoint f2 w) as [[r2|s2 e2] w2'];
    cbn [fst] in *; congruence. }
  split; [exact Hdec|].
  intros Hdrop i1 i2 O1 O2 [c1 D1] [c2 D2] (R1 & R2 & Hsize & Hrgb).
  apply Hdec. rewrite D1, D2.
  apply decode_Ok in D1 as (j1 & O1' & C1).
  apply decode_Ok in D2 as (j2 & O2' & C2).
  assert (j1 = i1) as -> by congruence.
  assert (j2 = i2) as -> by congruence.
  rewrite (Hdrop _ _ R1 C1), (Hdrop _ _ R2 C2).
  unfold drop_alpha. now rewrite Hsize, Hrgb.
Qed.


End Claims.

(** ** The instance satisfies the contracts *)

Section RawContracts.

Import Raw.

Lemma raw_convert_sets_mode : convert_sets_mode (pil := pillow).
Proof.
  intros im m out. cbn [Image_convert pillow]. unfold raw_convert.
  destruct m; try discriminate;
    destruct (im_mode im); try discriminate; intros [= <-]; reflexivity.
Qed.

Lemma raw_convert_keeps_size : convert_keeps_size (pil := pillow).
Proof.
  intros im m out. cbn [Image_convert pillow]. unfold raw_convert.
  destruct m; try discriminate;
    destruct (im_mode im); try discriminate; intros [= <-]; reflexivity.
Qed.

Lemma raw_convert_drops_alpha : convert_drops_alpha (pil := pillow).
Proof.
  intros im out [Hm|Hm]; cbn [Image_convert pillow]; unfold raw_convert;
    rewrite Hm; intros [= <-]; reflexivity.
Qed.

Lemma tag_mode_tag (m : Mode) : tag_mode (mode_tag m) = Some m.
Proof. destruct m; reflexivity. Qed.

Lemma get_put_sample (z : Z) (b : byte) :
  put_sample z = Some b -> get_sample b = z.
Proof.
  unfold put_sample, get_sample.
  destruct (Z.ltb_spec z 0) as [|Hz]; [discriminate|].
  intros H. apply Byte.to_of_N in H. rewrite H. now apply Z2N.id.
Qed.

Lemma get_put_samples (l : list Z) :
  forall bs,
    put_samples l = Some bs ->
    map get_sample bs = l /\ List.length bs = List.length l.
Proof.
  induction l as [|z l IH]; intros bs; cbn [put_samples].
  - intros [= <-]. split; reflexivity.
  - destruct (put_sample z) as [b|] eqn:Hb; [|discriminate].
    destruct (put_samples l) as [bs'|]; [|discriminate].
    intros [= <-]. destruct (IH bs' eq_refl) as [H1 H2].
    cbn [map List.length]. now rewrite (get_put_sample z b Hb), H1, H2.
Qed.

Lemma chunks_concat {A} (k : nat) (data : list (list A)) :
  Forall (fun px => List.length px = k) data ->
  chunks k (List.length data) (List.concat data) = data.
Proof.
  induction 1 as [|px data Hpx _ IH]; [reflexivity|].
  cbn [List.length List.concat chunks].
  rewrite firstn_app, skipn_app, <- Hpx, Nat.sub_diag, firstn_all, skipn_all.
  cbn [firstn skipn List.app]. rewrite app_nil_r. f_equal.
  rewrite Hpx. exact IH.
Qed.

Lemma length_concat_uniform {A} (k : nat) (data : list (list A)) :
  Forall (fun px => List.length px = k) data ->
  List.length (List.concat data) = List.length data * k.
Proof.
  induction 1 as [|px data Hpx _ IH]; [reflexivity|].
  cbn [List.concat List.length]. rewrite length_app, IH, Hpx. lia.
Qed.

(** The codec reads back what it wrote, in every mode. *)
Lemma raw_open_encode (im : Image) (b : bytes) :
  encode im = Some b -> raw_open b = Ok im.
Proof.
  unfold encode, well_shaped.
  destruct im as [m [wd ht] data]. unfold width, height. cbn [im_mode im_size im_data fst snd].
  destruct (Nat.eqb_spec (List.length data) (wd * ht)) as [Hlen|]; [|discriminate].
  cbn [andb].
  destruct (forallb (fun px => Nat.eqb (List.length px) (bands m)) data)
    eqn:Hall; [|discriminate].
  destruct (Byte.of_nat wd) as [bw|] eqn:Hw; [|discriminate].
  destruct (Byte.of_nat ht) as [bh|] eqn:Hh; [|discriminate].
  destruct (put_samples (List.concat data)) as [body|] eqn:Hbody; [|discriminate].
  intros [= <-].
  apply Byte.to_of_nat in Hw, Hh.
  destruct (get_put_samples _ _ Hbody) as [Hget Hlb].
  assert (Forall (fun px => List.length px = bands m) data) as Hshape.
  { apply Forall_forall. intros px Hin.
    rewrite forallb_forall in Hall. now apply Nat.eqb_eq, Hall. }
  unfold raw_open. rewrite tag_mode_tag, Hw, Hh.
  assert (Nat.eqb (List.length body) (wd * ht * bands m) = true) as Htest.
  { apply Nat.eqb_eq.
    rewrite Hlb, (length_concat_uniform (bands m) data Hshape).
    f_equal. exact Hlen. }
  rewrite Htest, Hget, <- Hlen. do 2 f_equal.
  exact (chunks_concat (bands m) data Hshape).
Qed.

Lemma raw_png_lossless : png_lossless (pil := pillow).
Proof.
  intros im b _. cbn [Image_save Image_open pillow]. unfold raw_save.
  cbn [String.eqb Ascii.eqb Bool.eqb].
  destruct (encode im) as [b'|] eqn:He; [|discriminate].
  intros [= <-]. now apply raw_open_encode.
Qed.

Lemma key_image_rgba (im : Image) (ty : string) (out : Image) :
  key_image im ty = Ok out -> im_mode out = RGBA /\ im_size out = im_size im.
Proof.
  unfold key_image. destruct (String.eqb ty "rgba"); [|discriminate].
  destruct (im_mode im); try discriminate.
  destruct (im_data im); [discriminate|].
  intros [= <-]. split; reflexivity.
Qed.

Lemma keyer_rgba_mode : process_rgba_mode (tb := keyer).
Proof. intros r im out H. now apply (key_image_rgba im "rgba"). Qed.

Lemma keyer_keeps_size : process_keeps_size (tb := keyer).
Proof. intros r im out H. now apply (key_image_rgba im "rgba"). Qed.

Lemma keyer_read_only : process_read_only (tb := keyer).
Proof. intros r im. reflexivity. Qed.

(** The counting model changes with every call, and is deterministic. *)
Lemma counting_keyer_changes :
  ~ process_read_only (tb := counting_keyer).
Proof.
  intros H. specialize (H O red_blue_rgb). discriminate H.
Qed.

Lemma counting_keyer_deterministic (r0 : nat) :
  process_deterministic (tb := counting_keyer) r0.
Proof. intros r _ im ty. reflexivity. Qed.

End RawContracts.

(** ** The properties on the instance *)

Import Raw.

Lemma garbage_not_decodable : ~ decodable (file_content (file_of garbage)).
Proof. intros [img H]. discriminate H. Qed.

Lemma red_blue_decodable : decodable (file_content (file_of red_blue)).
Proof. exists red_blue_rgb. reflexivity. Qed.

Lemma red_blue_faded_decodable :
  decodable (file_content (file_of red_blue_faded)).
Proof. exists red_blue_rgb. reflexivity. Qed.

Lemma red_blue_agree : agree_rgb red_blue_image red_blue_faded_image.
Proof. repeat split; right; reflexivity. Qed.

Lemma red_blue_run :
  remove_background_endpoint (file_of red_blue) startup =
    (Return (mkResponse keyed_png 200 "image/png"),
     snd (remove_background_endpoint (file_of red_blue) startup)).
Proof. vm_compute. reflexivity. Qed.


(** The 2x1 upload comes back as a 2x1 PNG. *)
Lemma output_dimensions_witness :
  exists out,
    Image_save out "PNG" = Ok keyed_png /\
    Image_open keyed_png = Ok out /\
    width out = 2 /\ height out = 1.
Proof.
  exact (output_dimensions (file_of red_blue) startup
           (snd (remove_background_endpoint (file_of red_blue) startup))
           red_blue_image (mkResponse keyed_png 200 "image/png")
           raw_convert_keeps_size keyer_keeps_size keyer_rgba_mode
           raw_png_lossless eq_refl red_blue_run).
Defined.

(** Its body is the PNG of the model's RGBA bitmap, and the endpoint returns
    it. *)
Lemma output_is_rgba_png_witness :
  (exists out,
     fst (Remover_process (w_remover startup) red_blue_rgb "rgba") = Ok out /\
     Image_save out "PNG" = Ok keyed_png /\
     im_mode out = RGBA /\ bands (im_mode out) = 4 /\
     Image_open keyed_png = Ok out)
  /\ fst (remove_background_endpoint (file_of red_blue) startup) =
       Return (mkResponse keyed_png 200 "image/png").
Proof.
  pose proof (output_is_rgba_png (file_of red_blue) startup red_blue_rgb
                keyer_rgba_mode raw_png_lossless eq_refl) as [H1 H2].
  split.
  - exact (H1 (mkResponse keyed_png 200 "image/png")
              (snd (remove_background_endpoint (file_of red_blue) startup))
              red_blue_run).
  - exact (H2 keyed_image keyed_png eq_refl eq_refl).
Defined.

(** Three bytes that are no image: a decode error, a 500, and the next
    request is served. *)
Lemma decode_error_iff_witness :
  (exists e,
     fst (remove_background_endpoint (file_of garbage) startup) =
       Raised Decode e)
  /\ fst (serve app [upload (file_of garbage); upload (file_of red_blue)] startup)
     = [FrameworkError 500;
        FromEndpoint (mkResponse keyed_png 200 "image/png")].
Proof.
  pose proof (decode_error_iff (file_of garbage) startup) as [[H1 _] H2].
  split.
  - exact (H1 garbage_not_decodable).
  - destruct (H2 garbage_not_decodable) as (_ & _ & _ & H3).
    rewrite H3. reflexivity.
Defined.

(** The model receives the RGB conversion of the RGBA upload. *)
Lemma model_input_is_rgb_witness :
  im_mode red_blue_rgb = RGB /\ bands (im_mode red_blue_rgb) = 3 /\
  exists img rest,
    Image_open red_blue = Ok img /\
    Image_convert img RGB = Ok red_blue_rgb /\
    w_trace (snd (remove_background_endpoint (file_of red_blue) startup)) =
      w_trace startup ++
      [EvRead (file_of red_blue); EvOpenBytesIO red_blue; EvConvert img RGB;
       EvProcess red_blue_rgb "rgba"] ++ rest /\
    filter is_Process rest = [].
Proof.
  exact (model_input_is_rgb (file_of red_blue) startup red_blue_rgb
           raw_convert_sets_mode eq_refl).
Defined.

(** The Swagger page is answered 200 and is not the upload route: the
    upload route is not the only route of the application. *)
Lemma single_route_counterexample :
  ~ (forall rq w,
       routed rq <->
       http_status (fst (respond app rq w)) <> 404%Z /\
       http_status (fst (respond app rq w)) <> 405%Z).
Proof.
  intros H. destruct (H docs_page startup) as [_ Hback].
  assert (routed docs_page) as [Hm _]
    by (apply Hback; split; discriminate).
  discriminate Hm.
Qed.

(** A successful upload: 200, image/png, the PNG bytes; and the Swagger
    page, which meets the first part on its documentation side. *)
Lemma upload_route_and_documentation_witness :
  (respond app (upload (file_of red_blue)) startup =
     (FromEndpoint (mkResponse keyed_png 200 "image/png"),
      snd (remove_background_endpoint (file_of red_blue) startup)) /\
   http_status (FromEndpoint (mkResponse keyed_png 200 "image/png")) = 200%Z /\
   http_media_type (FromEndpoint (mkResponse keyed_png 200 "image/png"))
     = Some "image/png")
  /\ (http_status (fst (respond app docs_page startup)) <> 404%Z /\
      http_status (fst (respond app docs_page startup)) <> 405%Z /\
      http_status (fst (respond app docs_page startup)) <> 307%Z).
Proof.
  destruct upload_route_and_documentation as (Hroutes & _ & H).
  split.
  - destruct (H (upload (file_of red_blue)) (file_of red_blue) startup
                (mkResponse keyed_png 200 "image/png")
                (snd (remove_background_endpoint (file_of red_blue) startup))
                (upload_routed _) eq_refl red_blue_run) as (H1 & H2 & H3 & _).
    repeat split; assumption.
  - apply (Hroutes docs_page startup eq_refl). right.
    split; cbn [In rq_method rq_path docs_page]; auto.
Defined.

(** Three requests, one of them failing: one instance, unchanged. *)
Lemma model_created_once_witness :
  w_remover
    (snd (run [upload (file_of red_blue); upload (file_of garbage);
               upload (file_of no_pixels)]))
    = Remover_new "fast" "dynamic" /\
  List.length
    (filter is_RemoverNew
       (w_trace
          (snd (run [upload (file_of red_blue); upload (file_of garbage);
                     upload (file_of no_pixels)])))) = 1.
Proof.
  destruct (model_created_once
              [upload (file_of red_blue); upload (file_of garbage);
               upload (file_of no_pixels)] keyer_read_only)
    as (H1 & _ & _ & H3 & _).
  split; assumption.
Defined.

(** With the counting model, whose instance changes at every call: the same
    upload after no request and after two. *)
Lemma endpoint_deterministic_witness :
  fst (respond (tb := counting_keyer) app (upload (file_of red_blue))
         (snd (run (tb := counting_keyer) [])))
  = fst (respond (tb := counting_keyer) app (upload (file_of red_blue))
           (snd (run (tb := counting_keyer)
                   [upload (file_of red_blue_faded);
                    upload (file_of no_pixels)]))).
Proof.
  exact (proj1 (endpoint_deterministic (tb := counting_keyer)
                  [] [upload (file_of red_blue_faded); upload (file_of no_pixels)]
                  (file_of red_blue) (file_of red_blue)
                  (counting_keyer_deterministic _) eq_refl)).
Defined.

(** A file part under another name: 422, nothing has run. *)
Lemma missing_file_rejected_witness :
  respond app misnamed startup = (FrameworkError 422, startup).
Proof.
  exact (proj1 (missing_file_rejected misnamed startup
                  (conj eq_refl eq_refl) eq_refl)).
Defined.

(** The same colours with other alpha values: the same response. *)
Lemma alpha_ignored_witness :
  fst (respond app (upload (file_of red_blue)) startup) =
  fst (respond app (upload (file_of red_blue_faded)) startup).
Proof.
  exact (proj2 (alpha_ignored (file_of red_blue) (file_of red_blue_faded) startup)
           raw_convert_drops_alpha red_blue_image red_blue_faded_image
           eq_refl eq_refl red_blue_decodable red_blue_faded_decodable
           red_blue_agree).
Defined.


(** ** Further behaviour of the application *)

Section Behaviour.

Context {pil : Pillow} {tb : TransparentBackground}.

Lemma endpoint_argument_cases (rq : Request) :
  (routed rq /\ endpoint_argument app rq = form_get "file" (rq_files rq))
  \/ (~ routed rq /\ endpoint_argument app rq = None).
Proof.
  destruct (respond_cases rq)
    as [(R & A & _)|[(R & F & A & _)|(file & R & F & A & _)]].
  - right. auto.
  - left. split; congruence.
  - left. split; congruence.
Qed.

(** The calls of one request: none unless the request reaches the endpoint;
    one inference call exactly when its upload is decodable. *)
Lemma respond_calls (rq : Request) (w : World) :
  exists evs,
    w_trace (snd (respond app rq w)) = w_trace w ++ evs /\
    List.length (filter is_Process evs) =
      (if invokes_model rq then 1 else 0) /\
    (evs = [] <-> endpoint_argument app rq = None).
Proof.
  unfold invokes_model.
  destruct (respond_cases rq)
    as [(_ & A & r & _ & E)|[(_ & _ & A & E)|(file & _ & _ & A & E)]];
    rewrite E, A; cbn [snd];
    try solve [exists []; rewrite app_nil_r; repeat split; auto].
  unfold decode.
  destruct (endpoint_pipeline file w)
    as [e O|i e O C|i c e O C P|i c o e O C P S|i c o p O C P S];
    rewrite O; try rewrite C; cbn [snd w_trace];
    (eexists; split; [reflexivity|]);
    (split; [reflexivity|]);
    split; discriminate.
Qed.

(** For every sequence of requests, the number of inference calls made is
    the number of requests with a decodable upload: one call for each of
    them, none for any other request. *)
Theorem model_calls_counted (rqs : list Request) (w : World) :
  List.length (filter is_Process (w_trace (snd (serve app rqs w)))) =
  List.length (filter is_Process (w_trace w)) +
  List.length (filter invokes_model rqs).
Proof.
  revert w. induction rqs as [|rq rest IH]; intros w.
  - cbn [serve snd filter List.length]. lia.
  - rewrite serve_cons. cbn [snd]. rewrite IH.
    destruct (respond_calls rq w) as (evs & -> & Hn & _).
    rewrite filter_app, length_app, Hn. cbn [filter].
    destruct (invokes_model rq); cbn [List.length]; lia.
Qed.

(** A request changes the process state exactly when it reaches the endpoint:
    requests for another path or method, and requests without the file part,
    leave it as it was. *)
Theorem state_changes_iff_endpoint_runs (rq : Request) (w : World) :
  snd (respond app rq w) = w <-> endpoint_argument app rq = None.
Proof.
  destruct (respond_calls rq w) as (evs & Htr & _ & Hnil).
  split.
  - intros H. apply Hnil. rewrite H in Htr.
    apply (f_equal (@List.length Event)) in Htr.
    rewrite length_app in Htr. destruct evs; [reflexivity|].
    cbn [List.length] in Htr. lia.
  - intros Ha.
    destruct (respond_cases rq)
      as [(_ & _ & r & _ & E)|[(_ & _ & _ & E)|(file & _ & _ & A & _)]];
      try (now rewrite E).
    congruence.
Qed.


(** The model instance after a run, in all cases: untouched when decoding
    fails, and otherwise as [process] left it, whether the run returned or
    raised later; the endpoint restores nothing. *)
Theorem model_state_after_run (file : UploadFile) (w : World) :
  w_remover (snd (remove_background_endpoint file w)) =
    match decode (file_content file) with
    | Ok rgb => snd (Remover_process (w_remover w) rgb "rgba")
    | Raise _ => w_remover w
    end.
Proof.
  unfold decode.
  destruct (endpoint_pipeline file w)
    as [e O|i e O C|i c e O C P|i c o e O C P S|i c o p O C P S];
    rewrite O; try rewrite C; reflexivity.
Qed.

(** A client receives a response of the endpoint only in answer to a POST
    to /api/remove-background whose upload was decodable; it then has status
    200, content type image/png and a PNG encoding as body.  A request with
    a decodable upload is answered by the endpoint or, when model or encoder
    raise, with 500, and with nothing else. *)
Theorem endpoint_responses (rq : Request) (w : World) :
  (forall resp,
     fst (respond app rq w) = FromEndpoint resp ->
     routed rq /\ invokes_model rq = true /\
     status_code resp = 200%Z /\ media_type resp = "image/png" /\
     exists out, Image_save out "PNG" = Ok (content resp))
  /\
  (invokes_model rq = true ->
   (exists resp, fst (respond app rq w) = FromEndpoint resp) \/
   fst (respond app rq w) = FrameworkError 500).
Proof.
  unfold invokes_model.
  destruct (respond_cases rq)
    as [(_ & A & r & Hb & E)|[(_ & _ & A & E)|(file & R & _ & A & E)]];
    rewrite E, A; cbn [fst snd].
  - split; [intros resp ->; discriminate Hb | discriminate].
  - split; discriminate.
  - unfold decode.
    destruct (endpoint_pipeline file w)
      as [e O|i e O C|i c e O C P|i c o e O C P S|i c o p O C P S];
      rewrite O; try rewrite C; cbn [fst].
    1-4: split; [discriminate | auto].
    split; [|eauto].
    intros resp [= <-]. cbn [status_code media_type content]. eauto 6.
Qed.

(** With a deterministic model, the instance reached after any requests
    answers every request as the freshly started process would. *)
Lemma respond_reachable_eq (rq : Request) (w1 w2 : World) :
  process_deterministic (Remover_new "fast" "dynamic") ->
  reachable (Remover_new "fast" "dynamic") (w_remover w1) ->
  reachable (Remover_new "fast" "dynamic") (w_remover w2) ->
  fst (respond app rq w1) = fst (respond app rq w2).
Proof.
  intros Hdet H1 H2.
  destruct (respond_cases rq)
    as [(_ & _ & r & _ & E)|[(_ & _ & _ & E)|(file & _ & _ & _ & E)]];
    rewrite !E; cbn [fst]; auto.
  assert (fst (remove_background_endpoint file w1) =
          fst (remove_background_endpoint file w2)) as Heq.
  { apply endpoint_result_eq; [reflexivity|].
    intros im. now rewrite (Hdet _ H1), (Hdet _ H2). }
  destruct (remove_background_endpoint file w1) as [[r1|s1 e1] w1'];
  destruct (remove_background_endpoint file w2) as [[r2|s2 e2] w2'];
  cbn [fst] in *; congruence.
Qed.

(** Requests are isolated from each other: with a deterministic model, the
    responses to a sequence of requests are, one by one, the responses each
    request would receive as the first request of the process. *)
Theorem requests_are_isolated (rqs : list Request) :
  process_deterministic (Remover_new "fast" "dynamic") ->
  fst (run rqs) = map (fun rq => fst (respond app rq startup)) rqs.
Proof.
  intros Hdet. unfold run.
  assert (forall l w,
            reachable (Remover_new "fast" "dynamic") (w_remover w) ->
            fst (serve app l w) =
              map (fun rq => fst (respond app rq startup)) l) as Hserve.
  { induction l as [|rq rest IH]; intros w Hw; [reflexivity|].
    rewrite serve_cons. cbn [fst map]. f_equal.
    - apply respond_reachable_eq; [exact Hdet | exact Hw | apply reach_new].
    - apply IH. apply respond_preserves; [|exact Hw].
      intros r im Hr. now apply reach_process. }
  apply Hserve. apply reach_new.
Qed.

End Behaviour.


(** Four requests to the counting model, whose instance changes at every
    inference call. *)
Lemma requests_are_isolated_witness :
  fst (run (tb := counting_keyer)
         [upload (file_of red_blue); upload (file_of garbage); misnamed;
          upload (file_of red_blue_faded)])
  = [FromEndpoint (mkResponse keyed_png 200 "image/png");
     FrameworkError 500; FrameworkError 422;
     FromEndpoint (mkResponse keyed_png 200 "image/png")].
Proof.
  exact (requests_are_isolated (tb := counting_keyer)
           [upload (file_of red_blue); upload (file_of garbage); misnamed;
            upload (file_of red_blue_faded)]
           (counting_keyer_deterministic _)).
Defined.
